(** * Result fetch proxy (server.js): a shallow embedding and its properties

    The program is an Express application with one JSON body parser, one
    cross-origin middleware and two routes.  The route [POST /fetch] drives a
    Playwright browser: it opens a context and a page, loads a form page,
    reads two tokens from it, posts a form from inside the page and relays
    the answer.

    The embedding follows the source line by line:
    - JavaScript values of the request body are a small value type with the
      language's truthiness, strict equality and property-key conversion;
    - the object literal [pages] is an association list of own properties
      whose lookup falls back on [Object.prototype], as a JavaScript property
      read does;
    - the handler is a program in a state monad with the three completions of
      a JavaScript block (normal, [return], [throw]) and a
      try/catch/finally combinator;
    - Playwright and the remote site are an environment that fixes, for each
      call the handler can make, whether it returns or throws; every call is
      recorded in a trace and acts on a table of open contexts and pages. *)

From Stdlib Require Import Ascii String List Bool Arith NArith Lia.
Import ListNotations.
Open Scope string_scope.

(** ** JavaScript values of the request body *)

Module JS.

(** The fields of the parsed body: absent ([undefined]) or one of the JSON
    scalars [null], [true]/[false] and strings.  JSON numbers, arrays and
    nested objects, which the request format does not use, are not
    represented. *)
Inductive value :=
| Undefined
| Null
| Boolean (b : bool)
| Str (s : string).

(** ToBoolean: what [!v] and [if (v)] test. *)
Definition truthy (v : value) : bool :=
  match v with
  | Undefined => false
  | Null => false
  | Boolean b => b
  | Str s => negb (s =? "")
  end.

Definition falsy (v : value) : bool := negb (truthy v).

(** [v === 'lit'] for a string literal. *)
Definition strict_eq_str (v : value) (lit : string) : bool :=
  match v with
  | Str s => s =? lit
  | _ => false
  end.

(** ToPropertyKey, used by the computed member access [obj[v]]. *)
Definition to_property_key (v : value) : string :=
  match v with
  | Undefined => "undefined"
  | Null => "null"
  | Boolean true => "true"
  | Boolean false => "false"
  | Str s => s
  end.

(** What assigning [v] to the [value] attribute of an input element stores:
    the attribute is a DOM string that turns [null] into the empty string. *)
Definition to_dom_string (v : value) : string :=
  match v with
  | Null => ""
  | _ => to_property_key v
  end.

(** *** Objects created by an object literal

    An object literal has its own properties, in insertion order, and
    [Object.prototype] as prototype.  A property read looks at the own
    properties first and then at the prototype. *)

(** The members of [Object.prototype] in Node.js. *)
Inductive proto_member :=
| P_constructor
| P_defineGetter
| P_defineSetter
| P_hasOwnProperty
| P_lookupGetter
| P_lookupSetter
| P_isPrototypeOf
| P_propertyIsEnumerable
| P_toString
| P_valueOf
| P_proto
| P_toLocaleString.

Definition proto_members : list (string * proto_member) :=
  [ ("constructor", P_constructor);
    ("__defineGetter__", P_defineGetter);
    ("__defineSetter__", P_defineSetter);
    ("hasOwnProperty", P_hasOwnProperty);
    ("__lookupGetter__", P_lookupGetter);
    ("__lookupSetter__", P_lookupSetter);
    ("isPrototypeOf", P_isPrototypeOf);
    ("propertyIsEnumerable", P_propertyIsEnumerable);
    ("toString", P_toString);
    ("valueOf", P_valueOf);
    ("__proto__", P_proto);
    ("toLocaleString", P_toLocaleString) ].

(** The result of reading a property of an object literal whose own
    properties are strings. *)
Inductive prop :=
| Own (s : string)
| Inherited (m : proto_member)
| NoProp.

Fixpoint assoc {A : Type} (k : string) (l : list (string * A)) : option A :=
  match l with
  | [] => None
  | (k', a) :: l' => if k =? k' then Some a else assoc k l'
  end.

(** [obj[key]] *)
Definition get (own : list (string * string)) (key : value) : prop :=
  let k := to_property_key key in
  match assoc k own with
  | Some s => Own s
  | None =>
      match assoc k proto_members with
      | Some m => Inherited m
      | None => NoProp
      end
  end.

(** ToBoolean of a property read: a missing property is [undefined], a
    string is truthy unless empty, functions and objects are truthy. *)
Definition prop_truthy (p : prop) : bool :=
  match p with
  | Own s => negb (s =? "")
  | Inherited _ => true
  | NoProp => false
  end.

(** The name under which a built-in function prints itself. *)
Definition function_name (m : proto_member) : string :=
  match m with
  | P_constructor => "Object"
  | P_defineGetter => "__defineGetter__"
  | P_defineSetter => "__defineSetter__"
  | P_hasOwnProperty => "hasOwnProperty"
  | P_lookupGetter => "__lookupGetter__"
  | P_lookupSetter => "__lookupSetter__"
  | P_isPrototypeOf => "isPrototypeOf"
  | P_propertyIsEnumerable => "propertyIsEnumerable"
  | P_toString => "toString"
  | P_valueOf => "valueOf"
  | P_proto => "__proto__"
  | P_toLocaleString => "toLocaleString"
  end.

(** ToString inside a template literal.  A built-in function prints as its
    native-code source text; [__proto__] is an accessor that yields
    [Object.prototype], which prints as a plain object. *)
Definition prop_to_string (p : prop) : string :=
  match p with
  | Own s => s
  | Inherited P_proto => "[object Object]"
  | Inherited m => "function " ++ function_name m ++ "() { [native code] }"
  | NoProp => "undefined"
  end.

End JS.

(** ** [getUrls]: the exam/year lookup *)

Record urls := { form : string; action : string }.

Definition base : string := "http://results.nu.ac.bd".

Definition pages : list (string * string) :=
  [ ("1", "first_year_result");
    ("2", "second_year_result");
    ("3", "third_year_result");
    ("4", "fourth_year_result");
    ("consolidated", "final_year_result") ].

(** [None] is the source's [null]. *)
Definition getUrls (exam year : JS.value) : option urls :=
  if JS.strict_eq_str exam "honours" then
    let page := JS.get pages year in
    if negb (JS.prop_truthy page) then None
    else
      Some {| form := base ++ "/honours/" ++ JS.prop_to_string page ++ ".php";
              action := base ++ "/honours/" ++ JS.prop_to_string page ++ "_show.php" |}
  else None.

(** ** The browser, its environment and the trace of calls *)

(** Result of an awaited call that settles: it resolves to a value or
    rejects with an error whose [message] the handler reports.  A call that
    never settles is not represented: the statements below are about the
    runs in which every awaited call settles. *)
Inductive outcome (A : Type) :=
| Returns (a : A)
| Throws (message : string).
Arguments Returns {A} a.
Arguments Throws {A} message.

(** What the first [page.evaluate] hands back: each field is the input's
    value, or [null] ([None]) when the selector matched nothing. *)
Record tokens := { csrf_token : option string; letters_code : option string }.

(** One choice of behaviour of Playwright and of the remote site during a
    request.  [close n] is the outcome of the call to [page.close()] that
    follows [n] earlier ones. *)
Record playwright := {
  newContext : outcome unit;
  newPage : outcome unit;
  setUserAgent : string -> outcome unit;
  goto : string -> outcome unit;
  evaluate_tokens : outcome tokens;
  fetch : string -> list (string * string) -> outcome string;
  close : nat -> outcome unit
}.

(** The contexts and pages that are open in the shared browser. *)
Record browser_state := {
  next_id : nat;
  contexts : list nat;
  open_pages : list nat
}.

Inductive event :=
| NewContext (r : outcome nat)
| NewPage (context : nat) (r : outcome nat)
| SetUserAgent (page : nat) (ua : string) (r : outcome unit)
| Goto (page : nat) (url waitUntil : string) (timeout : N) (r : outcome unit)
| EvaluateTokens (page : nat) (r : outcome tokens)
| Submit (page : nat) (url : string) (fields : list (string * string))
         (r : outcome string)
| Close (page : nat) (r : outcome unit)
| ConsoleLog (line : string)
| ConsoleError (line : string).

(** A navigation is any event that opens a session or loads a page. *)
Definition is_navigation (e : event) : bool :=
  match e with
  | NewContext _ | NewPage _ _ | Goto _ _ _ _ _ => true
  | _ => false
  end.

Definition is_submit (e : event) : bool :=
  match e with
  | Submit _ _ _ _ => true
  | _ => false
  end.

Definition is_close (e : event) : bool :=
  match e with
  | Close _ _ => true
  | _ => false
  end.

(** ** HTTP responses *)

Record response := {
  status : nat;
  headers : list (string * string);
  body : string
}.

Fixpoint set_header (name v : string) (h : list (string * string))
  : list (string * string) :=
  match h with
  | [] => [(name, v)]
  | (n, v') :: h' =>
      if n =? name then (name, v) :: h' else (n, v') :: set_header name v h'
  end.

Definition header (name : string) (r : response) : option string :=
  JS.assoc name (headers r).

(** ** The handler monad

    The state a handler run threads: the global [browser] (undefined, or the
    browser with its tables), the handler's variable [page], the response object [res] (status code and headers set
    so far), the responses sent and the trace of calls. *)

Record hstate := {
  st_browser : option browser_state;
  st_page : option nat;
  st_status : nat;
  st_headers : list (string * string);
  st_sent : list response;
  st_trace : list event
}.

(** Completion of a block: it runs to its end, executes [return], or
    throws. *)
Inductive completion (A : Type) :=
| Normal (a : A)
| Return
| Throw (message : string).
Arguments Normal {A} a.
Arguments Return {A}.
Arguments Throw {A} message.

Definition M (A : Type) : Type := hstate -> completion A * hstate.

Definition ret {A : Type} (a : A) : M A := fun s => (Normal a, s).

Definition bind {A B : Type} (m : M A) (k : A -> M B) : M B :=
  fun s =>
    match m s with
    | (Normal a, s') => k a s'
    | (Return, s') => (Return, s')
    | (Throw e, s') => (Throw e, s')
    end.

Definition return_ {A : Type} : M A := fun s => (Return, s).

Declare Scope handler_scope.
Delimit Scope handler_scope with handler.
Notation "x <- m ;; k" := (bind m (fun x => k))
  (at level 100, m at next level, right associativity) : handler_scope.
Notation "m ;; k" := (bind m (fun _ => k))
  (at level 100, right associativity) : handler_scope.

(** [try { body } catch (error) { handler error.message } finally { fin }]:
    the handler runs when the body throws, the finaliser always runs, and an
    abrupt completion of the finaliser replaces the one before it. *)
Definition try_catch_finally
  (body : M unit) (handler : string -> M unit) (fin : M unit) : M unit :=
  fun s =>
    let (c1, s1) := body s in
    let (c2, s2) :=
      match c1 with
      | Throw e => handler e s1
      | _ => (c1, s1)
      end in
    let (c3, s3) := fin s2 in
    match c3 with
    | Normal _ => (c2, s3)
    | _ => (c3, s3)
    end.

Definition emit (e : event) : M unit :=
  fun s =>
    (Normal tt,
     {| st_browser := st_browser s; st_page := st_page s;
        st_status := st_status s; st_headers := st_headers s;
        st_sent := st_sent s; st_trace := st_trace s ++ [e] |}).

Definition set_browser (b : option browser_state) : M unit :=
  fun s =>
    (Normal tt,
     {| st_browser := b; st_page := st_page s;
        st_status := st_status s; st_headers := st_headers s;
        st_sent := st_sent s; st_trace := st_trace s |}).

Definition set_page (p : option nat) : M unit :=
  fun s =>
    (Normal tt,
     {| st_browser := st_browser s; st_page := p;
        st_status := st_status s; st_headers := st_headers s;
        st_sent := st_sent s; st_trace := st_trace s |}).

Definition get_page : M (option nat) := fun s => (Normal (st_page s), s).

Definition throw {A : Type} (e : string) : M A := fun s => (Throw e, s).

(** *** The response object *)

(** [res.status(code)] *)
Definition res_status (code : nat) : M unit :=
  fun s =>
    (Normal tt,
     {| st_browser := st_browser s; st_page := st_page s;
        st_status := code; st_headers := st_headers s;
        st_sent := st_sent s; st_trace := st_trace s |}).

(** [res.header(name, v)] and [res.setHeader(name, v)] *)
Definition res_setHeader (name v : string) : M unit :=
  fun s =>
    (Normal tt,
     {| st_browser := st_browser s; st_page := st_page s;
        st_status := st_status s; st_headers := set_header name v (st_headers s);
        st_sent := st_sent s; st_trace := st_trace s |}).

(** [res.send(text)] and, with the empty text, [res.end()] *)
Definition res_send (text : string) : M unit :=
  fun s =>
    (Normal tt,
     {| st_browser := st_browser s; st_page := st_page s;
        st_status := st_status s; st_headers := st_headers s;
        st_sent := st_sent s ++
          [{| status := st_status s; headers := st_headers s; body := text |}];
        st_trace := st_trace s |}).

Open Scope handler_scope.

(** *** Calls into Playwright

    Each call asks the environment for its outcome, records the call, and
    updates the browser's tables when it returns.  The global [browser] is
    [undefined] ([None]) until the launch succeeds; a method call on
    [undefined] throws. *)

Definition count_closes (t : list event) : nat :=
  length (filter is_close t).

(** [await browser.newContext()] *)
Definition browser_newContext (env : playwright) : M nat :=
  fun s =>
    match st_browser s with
    | None => throw "Cannot read properties of undefined" s
    | Some b =>
        match newContext env with
        | Returns _ =>
            let c := next_id b in
            (set_browser (Some {| next_id := S c;
                                  contexts := c :: contexts b;
                                  open_pages := open_pages b |}) ;;
             emit (NewContext (Returns c)) ;;
             ret c) s
        | Throws e => (emit (NewContext (Throws e)) ;; throw e) s
        end
    end.

(** [await context.newPage()] *)
Definition context_newPage (env : playwright) (context : nat) : M nat :=
  fun s =>
    match st_browser s with
    | None => throw "Cannot read properties of undefined" s
    | Some b =>
        match newPage env with
        | Returns _ =>
            let p := next_id b in
            (set_browser (Some {| next_id := S p;
                                  contexts := contexts b;
                                  open_pages := p :: open_pages b |}) ;;
             emit (NewPage context (Returns p)) ;;
             ret p) s
        | Throws e => (emit (NewPage context (Throws e)) ;; throw e) s
        end
    end.

Definition lift {A : Type} (r : outcome A) : M A :=
  match r with
  | Returns a => ret a
  | Throws e => throw e
  end.

(** [await page.setUserAgent(ua)] *)
Definition page_setUserAgent (env : playwright) (p : nat) (ua : string) : M unit :=
  let r := setUserAgent env ua in
  emit (SetUserAgent p ua r) ;; lift r.

(** [await page.goto(url, { waitUntil, timeout })] *)
Definition page_goto (env : playwright) (p : nat) (url waitUntil : string)
  (timeout : N) : M unit :=
  let r := goto env url in
  emit (Goto p url waitUntil timeout r) ;; lift r.

(** The first [page.evaluate]: the in-page function reads the two inputs. *)
Definition page_evaluate_tokens (env : playwright) (p : nat) : M tokens :=
  let r := evaluate_tokens env in
  emit (EvaluateTokens p r) ;; lift r.

(** ToBoolean of a token: [null] and the empty string are falsy. *)
Definition token_truthy (t : option string) : bool :=
  match t with
  | Some s => negb (s =? "")
  | None => false
  end.

(** The text an input holds after [input.value = t]. *)
Definition token_dom_string (t : option string) : string :=
  match t with
  | Some s => s
  | None => ""
  end.

(** What the parser of absolute [http] URLs does to one character of a
    path that has no query, no fragment and no dot segment: the space and
    the braces are percent-encoded, the letters, the digits and
    [_ . / : ( ) [ ]] are kept.  These are the characters of the URLs
    [getUrls] builds (lemma [getUrls_alphabet]). *)
Definition percent_encode (c : Ascii.ascii) : string :=
  if Ascii.eqb c " "%char then "%20"
  else if Ascii.eqb c "{"%char then "%7B"
  else if Ascii.eqb c "}"%char then "%7D"
  else String c "".

(** What [form.action] reads back after [form.action = url]: the
    serialisation of the parsed URL. *)
Fixpoint form_action (url : string) : string :=
  match url with
  | EmptyString => EmptyString
  | String c rest => percent_encode c ++ form_action rest
  end.

(** The characters [percent_encode] is defined for. *)
Definition url_char (c : Ascii.ascii) : bool :=
  existsb (Ascii.eqb c)
    (list_ascii_of_string
       "abcdefghijklmnopqrstuvwxyzABCDEFGHIJKLMNOPQRSTUVWXYZ0123456789_./:()[]{} ").

Fixpoint all_chars (f : Ascii.ascii -> bool) (s : string) : bool :=
  match s with
  | EmptyString => true
  | String c rest => f c && all_chars f rest
  end.

(** The second [page.evaluate]: the in-page function builds a form, sets
    its [action] to [urls.action], appends one hidden input per entry of
    [inputs] in the order of the literal, and posts the form's data with
    [fetch] to [form.action]; it hands back the text of the answer. *)
Definition page_evaluate_submit (env : playwright) (p : nat) (u : urls)
  (roll reg examYear : JS.value) (t : tokens) : M string :=
  let inputs :=
    [ ("roll_number", JS.to_dom_string roll);
      ("reg_no", JS.to_dom_string reg);
      ("exam_year", JS.to_dom_string examYear);
      ("csrf_token", token_dom_string (csrf_token t));
      ("letters_code", token_dom_string (letters_code t)) ] in
  let url := form_action (action u) in
  let r := fetch env url inputs in
  emit (Submit p url inputs r) ;; lift r.

Definition remove_page (p : nat) (l : list nat) : list nat :=
  filter (fun q => negb (q =? p)%nat) l.

(** [await page.close()]: the page leaves the table when the call returns;
    the context it belongs to is not touched. *)
Definition page_close (env : playwright) (p : nat) : M unit :=
  fun s =>
    let r := close env (count_closes (st_trace s)) in
    match r with
    | Returns _ =>
        (match st_browser s with
         | Some b =>
             set_browser (Some {| next_id := next_id b;
                                  contexts := contexts b;
                                  open_pages := remove_page p (open_pages b) |})
         | None => ret tt
         end ;;
         emit (Close p r)) s
    | Throws e => (emit (Close p r) ;; throw e) s
    end.

Definition console_log (line : string) : M unit := emit (ConsoleLog line).
Definition console_error (line : string) : M unit := emit (ConsoleError line).

(** ** The route [POST /fetch] *)

(** The five fields the handler destructures from [req.body]. *)
Record fetch_body := {
  exam : JS.value;
  year : JS.value;
  roll : JS.value;
  reg : JS.value;
  examYear : JS.value
}.

Definition user_agent : string :=
  "Mozilla/5.0 (Windows NT 10.0; Win64; x64) AppleWebKit/537.36".

(** The [try] block. *)
Definition fetch_try (env : playwright) (b : fetch_body) : M unit :=
  if JS.falsy (exam b) || JS.falsy (year b) || JS.falsy (reg b)
     || JS.falsy (examYear b)
  then res_status 400 ;; res_send "Missing required fields" ;; return_
  else
    match getUrls (exam b) (year b) with
    | None => res_status 400 ;; res_send "Invalid exam or year" ;; return_
    | Some u =>
        fun s =>
          match st_browser s with
          | None => (res_status 500 ;; res_send "Browser not ready" ;; return_) s
          | Some _ =>
              (context <- browser_newContext env ;;
               p <- context_newPage env context ;;
               set_page (Some p) ;;
               page_setUserAgent env p user_agent ;;
               console_log ("Visiting: " ++ form u) ;;
               page_goto env p (form u) "networkidle" 30000%N ;;
               t <- page_evaluate_tokens env p ;;
               if negb (token_truthy (csrf_token t))
                  || negb (token_truthy (letters_code t))
               then
                 page_close env p ;;
                 res_status 500 ;;
                 res_send "❌ Failed to extract security tokens" ;;
                 return_
               else
                 resultHtml <- page_evaluate_submit env p u (roll b) (reg b)
                                 (examYear b) t ;;
                 res_setHeader "Content-Type" "text/html" ;;
                 res_send resultHtml) s
          end
    end.

(** The [catch] block. *)
Definition fetch_catch (message : string) : M unit :=
  console_error ("Error: " ++ message) ;;
  res_status 500 ;;
  res_send ("<h3>🚨 Proxy Error</h3><p>" ++ message ++ "</p>").

(** The [finally] block. *)
Definition fetch_finally (env : playwright) : M unit :=
  page <- get_page ;;
  match page with
  | Some p => page_close env p
  | None => ret tt
  end.

Definition fetch_handler (env : playwright) (b : fetch_body) : M unit :=
  set_page None ;;
  try_catch_finally (fetch_try env b) fetch_catch (fetch_finally env).

(** ** The route [GET /] *)

Definition root_page : string :=
  "
    <h2>🎓 NU Result Playwright Proxy</h2>
    <p>Running for educational purposes.</p>
    <code>POST /fetch with exam, year, roll, reg, examYear</code>
  ".

Definition root_handler : M unit := res_send root_page.

(** ** The application: body parser, cross-origin middleware, routes *)

(** The request methods the model tells apart.  [HEAD], which the framework
    serves through the [GET] routes without a body, is left out. *)
Inductive http_method := GET | POST | OPTIONS | PUT | DELETE | PATCH.

(** The request path as the router classifies it: one that matches
    ['/fetch'], one that matches ['/'], or any other. *)
Inductive path :=
| PathFetch
| PathRoot
| PathOther (p : string).

(** What [express.json()] makes of the request: a body object it hands on
    (the empty object when there is nothing to parse), or an error with an
    HTTP status, which the framework answers itself without running the
    middleware and routes registered after the parser. *)
Inductive parsed :=
| Body (b : fetch_body)
| Rejected (code : nat).

Record request := {
  method : http_method;
  target : path;
  payload : parsed
}.

(** The pages the framework writes by itself. *)
Record framework := {
  error_page : nat -> string;
  not_found_page : string
}.

Definition is_options (m : http_method) : bool :=
  match m with
  | OPTIONS => true
  | _ => false
  end.

(** The middleware of lines 10-18; [next] is the rest of the chain. *)
Definition cors (req : request) (next : M unit) : M unit :=
  res_setHeader "Access-Control-Allow-Origin" "*" ;;
  res_setHeader "Access-Control-Allow-Methods" "POST, GET, OPTIONS" ;;
  res_setHeader "Access-Control-Allow-Headers" "Content-Type" ;;
  if is_options (method req) then res_status 200 ;; res_send "" ;; return_
  else next.

Definition router (fw : framework) (env : playwright) (req : request)
  (b : fetch_body) : M unit :=
  match method req, target req with
  | POST, PathFetch => fetch_handler env b
  | GET, PathRoot => root_handler
  | _, _ => res_status 404 ;; res_send (not_found_page fw)
  end.

Definition app (fw : framework) (env : playwright) (req : request) : M unit :=
  match payload req with
  | Rejected code => res_status code ;; res_send (error_page fw code)
  | Body b => cors req (router fw env req b)
  end.

(** The state in which a request starts: [browser] is the global variable,
    the response object is fresh. *)
Definition start (browser : option browser_state) : hstate :=
  {| st_browser := browser; st_page := None; st_status := 200;
     st_headers := []; st_sent := []; st_trace := [] |}.

(** Running the application on one request. *)
Definition serve (fw : framework) (env : playwright)
  (browser : option browser_state) (req : request) : hstate :=
  snd (app fw env req (start browser)).

(** A [POST /fetch] request with a parsed body. *)
Definition post_fetch (b : fetch_body) : request :=
  {| method := POST; target := PathFetch; payload := Body b |}.

(** ** Notions the statements use *)

(** The headers the cross-origin middleware sets. *)
Definition cors_headers : list (string * string) :=
  [ ("Access-Control-Allow-Origin", "*");
    ("Access-Control-Allow-Methods", "POST, GET, OPTIONS");
    ("Access-Control-Allow-Headers", "Content-Type") ].

(** The state after a request that was answered by the handler with [code]
    and [text] before any call into the browser. *)
Definition answered (browser : option browser_state) (code : nat)
  (text : string) : hstate :=
  {| st_browser := browser; st_page := None; st_status := code;
     st_headers := cors_headers;
     st_sent := [{| status := code; headers := cors_headers; body := text |}];
     st_trace := [] |}.

(** The test of line 64. *)
Definition missing_fields (b : fetch_body) : bool :=
  JS.falsy (exam b) || JS.falsy (year b) || JS.falsy (reg b)
  || JS.falsy (examYear b).

(** A body that gets past lines 64-71. *)
Definition resolvable (b : fetch_body) : bool :=
  negb (missing_fields b) &&
  match getUrls (exam b) (year b) with
  | Some _ => true
  | None => false
  end.

Definition navigated (s : hstate) : bool := existsb is_navigation (st_trace s).
Definition submitted (s : hstate) : bool := existsb is_submit (st_trace s).

(** No context and no page of the session is left in the browser's tables:
    they are what they were before the request. *)
Definition session_released (before : browser_state) (s : hstate) : Prop :=
  exists after,
    st_browser s = Some after /\
    contexts after = contexts before /\
    open_pages after = open_pages before.

(** A field that is the empty string, read as absent. *)
Definition absent_if_empty (v : JS.value) : JS.value :=
  match v with
  | JS.Str "" => JS.Undefined
  | _ => v
  end.

(** The body with its four validated fields read through
    [absent_if_empty]. *)
Definition empty_as_absent (b : fetch_body) : fetch_body :=
  {| exam := absent_if_empty (exam b);
     year := absent_if_empty (year b);
     roll := roll b;
     reg := absent_if_empty (reg b);
     examYear := absent_if_empty (examYear b) |}.

(** ** Sample inputs *)

Definition plain_framework : framework :=
  {| error_page := fun _ => "Bad Request"; not_found_page := "Not Found" |}.

Definition fresh_browser : browser_state :=
  {| next_id := 0; contexts := []; open_pages := [] |}.

(** An environment in which every call returns: the form page carries the
    tokens [t] and the remote site answers every post with [html]. *)
Definition cooperative (t : tokens) (html : string) : playwright :=
  {| newContext := Returns tt;
     newPage := Returns tt;
     setUserAgent := fun _ => Returns tt;
     goto := fun _ => Returns tt;
     evaluate_tokens := Returns t;
     fetch := fun _ _ => Returns html;
     close := fun _ => Returns tt |}.

Definition both_tokens : tokens :=
  {| csrf_token := Some "k3y"; letters_code := Some "QWRT" |}.

Definition no_letters_code : tokens :=
  {| csrf_token := Some "k3y"; letters_code := None |}.

Definition result_html : string := "<table><tr><td>GPA 3.50</td></tr></table>".

Definition student (exam year : string) (roll : JS.value) : fetch_body :=
  {| exam := JS.Str exam; year := JS.Str year; roll := roll;
     reg := JS.Str "17212345678"; examYear := JS.Str "2021" |}.

Definition empty_body : fetch_body :=
  {| exam := JS.Undefined; year := JS.Undefined; roll := JS.Undefined;
     reg := JS.Undefined; examYear := JS.Undefined |}.

(** ** The launch of the browser

    Lines 21-31: the program launches the browser once, in a [try] whose
    [catch] only logs; [launch] is what [chromium.launch] does. *)

Definition launch_browser (launch : outcome browser_state) : M unit :=
  try_catch_finally
    (b <- lift launch ;;
     set_browser (Some b) ;;
     console_log "✅ Playwright browser launched")
    (fun message => console_error ("❌ Failed to launch browser: " ++ message))
    (ret tt).

(** The global [browser] once the launch has settled. *)
Definition launched (launch : outcome browser_state) : option browser_state :=
  st_browser (snd (launch_browser launch (start None))).

(** The launch is not awaited and the server listens at once: a request can
    arrive while [chromium.launch] is still pending, or after it settled. *)
Inductive launch_state :=
| Pending
| Settled (launch : outcome browser_state).

(** The global [browser] a request finds. *)
Definition browser_at (l : launch_state) : option browser_state :=
  match l with
  | Pending => None
  | Settled launch => launched launch
  end.

(** ** Further notions *)

(** A request run with the completion of its handler: [Throw] is a rejected
    promise of the asynchronous handler. *)
Definition run_request (fw : framework) (env : playwright)
  (browser : option browser_state) (req : request) : completion unit * hstate :=
  app fw env req (start browser).

(** The body the [catch] block of the handler sends. *)
Definition proxy_error (message : string) : string :=
  "<h3>🚨 Proxy Error</h3><p>" ++ message ++ "</p>".

(** The message of a call that threw; the calls to [page.close()] are
    apart, they also run outside the [try]. *)
Definition failure_of (e : event) : option string :=
  match e with
  | NewContext (Throws m) => Some m
  | NewPage _ (Throws m) => Some m
  | SetUserAgent _ _ (Throws m) => Some m
  | Goto _ _ _ _ (Throws m) => Some m
  | EvaluateTokens _ (Throws m) => Some m
  | Submit _ _ _ (Throws m) => Some m
  | _ => None
  end.

Definition page_opened (e : event) : bool :=
  match e with
  | NewPage _ (Returns _) => true
  | _ => false
  end.

(** The extraction returned, and the test of line 101 refuses its tokens. *)
Definition tokens_refused (e : event) : bool :=
  match e with
  | EvaluateTokens _ (Returns t) =>
      negb (token_truthy (csrf_token t)) || negb (token_truthy (letters_code t))
  | _ => false
  end.

Definition is_goto (e : event) : bool :=
  match e with
  | Goto _ _ _ _ _ => true
  | _ => false
  end.

(** The part of a trace that comes before the first event [f] accepts. *)
Fixpoint until (f : event -> bool) (t : list event) : list event :=
  match t with
  | [] => []
  | e :: t' => if f e then [] else e :: until f t'
  end.

(** Identifiers in use are below the next one to hand out. *)
Definition well_formed (w : browser_state) : Prop :=
  Forall (fun q => q < next_id w) (open_pages w).

(** ** Further sample inputs *)

(** A browser in which another request has a context and a page open. *)
Definition busy_browser : browser_state :=
  {| next_id := 5; contexts := [3]; open_pages := [4] |}.

(** The form page never becomes idle within the timeout. *)
Definition stalled (message : string) : playwright :=
  {| newContext := Returns tt;
     newPage := Returns tt;
     setUserAgent := fun _ => Returns tt;
     goto := fun _ => Throws message;
     evaluate_tokens := Returns both_tokens;
     fetch := fun _ _ => Returns result_html;
     close := fun _ => Returns tt |}.

(** Every call returns but [page.close()]. *)
Definition unclosable (message : string) : playwright :=
  {| newContext := Returns tt;
     newPage := Returns tt;
     setUserAgent := fun _ => Returns tt;
     goto := fun _ => Returns tt;
     evaluate_tokens := Returns both_tokens;
     fetch := fun _ _ => Returns result_html;
     close := fun _ => Throws message |}.

Definition empty_csrf_token : tokens :=
  {| csrf_token := Some ""; letters_code := Some "QWRT" |}.

(** * Properties *)

(** ** Symbolic execution of a request

    [run] unfolds the monad and the handler; [crunch] follows every branch
    the environment and the request can take. *)

Ltac run :=
  cbv beta iota zeta delta
    [serve app cors router post_fetch fetch_handler root_handler
     try_catch_finally fetch_try fetch_catch fetch_finally
     browser_newContext context_newPage page_setUserAgent console_log
     console_error page_goto page_evaluate_tokens page_evaluate_submit
     page_close lift bind ret return_ throw emit set_browser set_page
     get_page res_status res_setHeader res_send start is_options
     count_closes is_close filter length Datatypes.app fst snd
     st_browser st_page st_status st_sent st_trace st_headers
     method target payload answered navigated submitted
     next_id contexts open_pages].

Ltac case_step :=
  match goal with
  | |- context [match ?x with _ => _ end] =>
      lazymatch x with
      | context [match _ with _ => _ end] => fail
      | _ => destruct x eqn:?
      end
  end.

Ltac crunch := run; repeat (case_step; run).

(** The same with the final state named once: the goal speaks of
    [serve ...] in several places, and the run is explored a single time. *)
Ltac explore :=
  cbv zeta;
  match goal with
  | |- context [serve ?fw ?env ?br ?rq] =>
      let s := fresh "s" in
      let E := fresh "E" in
      remember (serve fw env br rq) as s eqn:E;
      revert s E; crunch; intros s E; subst s; cbv beta iota
  end.

(** A call to [page.close()] is in an explicit trace. *)
Ltac close_issued :=
  eexists; cbn [In]; repeat (first [left; reflexivity | right]).

(** A branch in which a [close] threw, although all of them return. *)
Ltac closes_return Hc :=
  match goal with
  | E : close _ ?n = Throws _ |- _ => rewrite (Hc n) in E; discriminate E
  end.

(** Membership in a list that evaluates to explicit elements. *)
Ltac find_in := vm_compute; repeat (first [left; reflexivity | right]).

(** Membership in a trace or a list of responses that [crunch] made
    explicit. *)
Ltac pick H :=
  cbn [In] in H;
  repeat (destruct H as [H | H]; [try discriminate H | ]);
  try contradiction.

(** The same exploration for a run taken with its completion. *)
Ltac explore_run :=
  cbv zeta;
  match goal with
  | |- context [run_request ?fw ?env ?br ?rq] =>
      let s := fresh "s" in
      let E := fresh "E" in
      remember (run_request fw env br rq) as s eqn:E;
      revert s E; unfold run_request; crunch; intros s E; subst s;
      cbv beta iota
  end.

(** An event is in an explicit trace, or in its part before some call. *)
Ltac in_trace :=
  cbn [In until is_goto is_submit];
  repeat (first [left; reflexivity | right]).

(** ** Values *)

Lemma truthy_nonempty s : JS.truthy (JS.Str s) = true <-> s <> "".
Proof.
  cbn. destruct (String.eqb_spec s ""); cbn; split; congruence.
Qed.

Lemma falsy_cases v :
  JS.falsy v = true <->
  v = JS.Undefined \/ v = JS.Null \/ v = JS.Boolean false \/ v = JS.Str "".
Proof.
  unfold JS.falsy. destruct v as [ | | [|] | s]; cbn.
  - intuition.
  - intuition.
  - intuition discriminate.
  - intuition.
  - destruct (String.eqb_spec s ""); cbn.
    + subst. intuition.
    + split; [discriminate | ].
      intros [H | [H | [H | H]]]; try discriminate. congruence.
Qed.

Lemma absent_if_empty_falsy v : JS.falsy (absent_if_empty v) = JS.falsy v.
Proof.
  destruct v as [ | | b | [ | a s]]; reflexivity.
Qed.

Lemma dom_string_of_string s : JS.to_dom_string (JS.Str s) = s.
Proof. reflexivity. Qed.

Lemma token_absent_falsy t :
  csrf_token t = None \/ letters_code t = None ->
  negb (token_truthy (csrf_token t)) || negb (token_truthy (letters_code t))
  = true.
Proof.
  intros [H | H]; rewrite H; cbn; [reflexivity | apply orb_true_r].
Qed.

Lemma token_truthy_some t :
  token_truthy t = true -> exists s, t = Some s /\ s <> "".
Proof.
  destruct t as [s | ]; cbn; [ | discriminate].
  destruct (String.eqb_spec s ""); [discriminate | eauto].
Qed.

(** Past the test of line 101 both tokens are non-empty strings. *)
Lemma tokens_truthy_both t :
  negb (token_truthy (csrf_token t)) || negb (token_truthy (letters_code t))
  = false ->
  exists c l,
    t = {| csrf_token := Some c; letters_code := Some l |} /\
    c <> "" /\ l <> "".
Proof.
  intros H. apply orb_false_elim in H. destruct H as [H1 H2].
  apply negb_false_iff in H1, H2.
  destruct (token_truthy_some _ H1) as [c [E1 N1]].
  destruct (token_truthy_some _ H2) as [l [E2 N2]].
  destruct t as [x y]; cbn in *; subst. eauto.
Qed.

(** ** [getUrls] *)

(** The five rows of the lookup table. *)
Lemma getUrls_table :
  getUrls (JS.Str "honours") (JS.Str "1") =
    Some {| form := "http://results.nu.ac.bd/honours/first_year_result.php";
            action := "http://results.nu.ac.bd/honours/first_year_result_show.php" |} /\
  getUrls (JS.Str "honours") (JS.Str "2") =
    Some {| form := "http://results.nu.ac.bd/honours/second_year_result.php";
            action := "http://results.nu.ac.bd/honours/second_year_result_show.php" |} /\
  getUrls (JS.Str "honours") (JS.Str "3") =
    Some {| form := "http://results.nu.ac.bd/honours/third_year_result.php";
            action := "http://results.nu.ac.bd/honours/third_year_result_show.php" |} /\
  getUrls (JS.Str "honours") (JS.Str "4") =
    Some {| form := "http://results.nu.ac.bd/honours/fourth_year_result.php";
            action := "http://results.nu.ac.bd/honours/fourth_year_result_show.php" |} /\
  getUrls (JS.Str "honours") (JS.Str "consolidated") =
    Some {| form := "http://results.nu.ac.bd/honours/final_year_result.php";
            action := "http://results.nu.ac.bd/honours/final_year_result_show.php" |}.
Proof. repeat split. Qed.

Lemma getUrls_other_exam exam year :
  exam <> JS.Str "honours" -> getUrls exam year = None.
Proof.
  intros H. unfold getUrls.
  destruct exam as [ | | b | s]; cbn; try reflexivity.
  destruct (String.eqb_spec s "honours"); [subst; congruence | reflexivity].
Qed.

Lemma pages_nonempty k s : JS.assoc k pages = Some s -> s <> "".
Proof.
  unfold pages. cbn [JS.assoc].
  repeat match goal with
         | |- context [if ?c then _ else _] => destruct c
         end;
    intros H; inversion H; discriminate.
Qed.

(** [getUrls] answers [null] exactly when the exam is not ['honours'] or the
    year names neither a row of [pages] nor a member of
    [Object.prototype]. *)
Lemma getUrls_null_iff exam year :
  getUrls exam year = None <->
  exam <> JS.Str "honours" \/ JS.get pages year = JS.NoProp.
Proof.
  split.
  - unfold getUrls.
    destruct (JS.strict_eq_str exam "honours") eqn:E.
    + destruct (JS.get pages year) eqn:G; cbn.
      * unfold JS.get in G.
        destruct (JS.assoc (JS.to_property_key year) pages) eqn:A.
        -- inversion G; subst.
           apply pages_nonempty in A.
           destruct (String.eqb_spec s ""); [contradiction | discriminate].
        -- destruct (JS.assoc (JS.to_property_key year) JS.proto_members);
             discriminate.
      * discriminate.
      * auto.
    + intros _. left. intros ->. discriminate.
  - intros [H | H].
    + now apply getUrls_other_exam.
    + unfold getUrls. rewrite H. cbn.
      destruct (JS.strict_eq_str exam "honours"); reflexivity.
Qed.

(** A year that is no row and no prototype member is not found. *)
Lemma getUrls_unknown_year exam year :
  JS.assoc (JS.to_property_key year) pages = None ->
  JS.assoc (JS.to_property_key year) JS.proto_members = None ->
  getUrls exam year = None.
Proof.
  intros H1 H2. apply getUrls_null_iff. right.
  unfold JS.get. now rewrite H1, H2.
Qed.

(** Every name of a member of [Object.prototype] resolves as a year. *)
Lemma getUrls_inherited k m :
  JS.assoc k JS.proto_members = Some m ->
  getUrls (JS.Str "honours") (JS.Str k) <> None.
Proof.
  intros H N. apply getUrls_null_iff in N. destruct N as [N | N].
  - now apply N.
  - unfold JS.get in N. cbn [JS.to_property_key] in N. rewrite H in N.
    destruct (JS.assoc k pages); discriminate N.
Qed.

(** C3, at the year ['constructor']: the pair is outside the lookup table,
    yet [getUrls] does not answer [null].  The property read
    [pages['constructor']] finds the member [Object.prototype.constructor],
    which is truthy, so the guard [if (!page) return null] is passed and a
    URL pair is built from the function's source text. *)
Theorem getUrls_inherited_year :
  JS.assoc "constructor" pages = None /\
  getUrls (JS.Str "honours") (JS.Str "constructor") =
    Some {| form :=
              "http://results.nu.ac.bd/honours/function Object() { [native code] }.php";
            action :=
              "http://results.nu.ac.bd/honours/function Object() { [native code] }_show.php" |}.
Proof. split; reflexivity. Qed.

(** ** The early answers of [POST /fetch] *)

(** Line 64-66: a falsy [exam], [year], [reg] or [examYear] ends the request
    with 400 before anything else happens. *)
Lemma missing_fields_answer fw env browser b :
  missing_fields b = true ->
  serve fw env browser (post_fetch b) =
  answered browser 400 "Missing required fields".
Proof.
  unfold missing_fields. intros H. run. rewrite H. reflexivity.
Qed.

(** Line 68-71: a pair [getUrls] does not resolve ends the request with
    400. *)
Lemma unknown_pair_answer fw env browser b :
  missing_fields b = false ->
  getUrls (exam b) (year b) = None ->
  serve fw env browser (post_fetch b) =
  answered browser 400 "Invalid exam or year".
Proof.
  unfold missing_fields. intros H G. run. rewrite H, G. reflexivity.
Qed.

(** Line 73-75: without a browser the request ends with 500. *)
Lemma no_browser_answer fw env b u :
  missing_fields b = false ->
  getUrls (exam b) (year b) = Some u ->
  serve fw env None (post_fetch b) = answered None 500 "Browser not ready".
Proof.
  unfold missing_fields. intros H G. run. rewrite H, G. reflexivity.
Qed.

(** Every request is answered exactly once. *)
Lemma one_response fw env browser req :
  length (st_sent (serve fw env browser req)) = 1.
Proof.
  destruct req as [m t [b | code]]; crunch; reflexivity.
Qed.

Lemma remove_page_spec p l : ~ In p (remove_page p l).
Proof.
  unfold remove_page. rewrite filter_In. intros [_ H].
  rewrite Nat.eqb_refl in H. discriminate.
Qed.

(** ** Claims about the validation of the body *)

(** A body that passes lines 64-71 reaches the browser whenever there is
    one: the handler calls [browser.newContext()] and the answer is not a
    400, whatever the calls into the browser do. *)
Lemma accepted_request_navigates fw env w b :
  resolvable b = true ->
  (exists r,
     st_sent (serve fw env (Some w) (post_fetch b)) = [r] /\ status r <> 400) /\
  (exists r, In (NewContext r) (st_trace (serve fw env (Some w) (post_fetch b)))).
Proof.
  unfold resolvable, missing_fields. intros H.
  apply andb_true_iff in H. destruct H as [M G].
  apply negb_true_iff in M.
  destruct (getUrls (exam b) (year b)) as [u | ] eqn:U; [clear G | discriminate G].
  explore.
  all: try congruence.
  all: split; [ eexists; split; [reflexivity | discriminate]
              | eexists; left; reflexivity ].
Qed.

(** C1, at a body without [roll]: the four other fields are present and
    valid, and the request is not refused.  The test of line 64 leaves
    [roll] out, so whatever the browser does the handler opens a session
    and the answer is not a 400; when every call returns, it loads the form
    page and posts the form with the text [undefined] as roll number, and
    the answer is the remote site's, with status 200. *)
Theorem fetch_without_roll_is_served fw env w :
  let b := student "honours" "1" JS.Undefined in
  let s := serve fw env (Some w) (post_fetch b) in
  let s' := serve plain_framework (cooperative both_tokens result_html)
              (Some fresh_browser) (post_fetch b) in
  roll b = JS.Undefined /\
  (exists r, st_sent s = [r] /\ status r <> 400) /\
  (exists r, In (NewContext r) (st_trace s)) /\
  st_sent s' =
    [{| status := 200;
        headers := cors_headers ++ [("Content-Type", "text/html")];
        body := result_html |}] /\
  In (Submit 1 "http://results.nu.ac.bd/honours/first_year_result_show.php"
        [ ("roll_number", "undefined"); ("reg_no", "17212345678");
          ("exam_year", "2021"); ("csrf_token", "k3y");
          ("letters_code", "QWRT") ]
        (Returns result_html))
     (st_trace s').
Proof.
  cbv zeta. split; [reflexivity | ].
  destruct (accepted_request_navigates fw env w
              (student "honours" "1" JS.Undefined)) as [R N];
    [reflexivity | ].
  split; [exact R | ].
  split; [exact N | ].
  split; [vm_compute; reflexivity | ].
  find_in.
Qed.

(** C10: a [POST /fetch] whose [exam], [year], [reg] or [examYear] is the
    empty string is answered with 400 and the text of the missing-field
    branch, with no call into the browser and the browser's tables
    untouched; the whole run is the one of the same body with the empty
    fields absent. *)
Theorem empty_field_rejected_as_absent fw env browser b :
  exam b = JS.Str "" \/ year b = JS.Str "" \/ reg b = JS.Str "" \/
  examYear b = JS.Str "" ->
  serve fw env browser (post_fetch b) =
    answered browser 400 "Missing required fields" /\
  serve fw env browser (post_fetch b) =
    serve fw env browser (post_fetch (empty_as_absent b)).
Proof.
  intros H.
  assert (M : missing_fields b = true).
  { unfold missing_fields.
    destruct H as [H | [H | [H | H]]]; rewrite H; cbn;
      rewrite ?orb_true_r; reflexivity. }
  assert (M' : missing_fields (empty_as_absent b) = true).
  { unfold missing_fields, empty_as_absent in *. cbn.
    now rewrite !absent_if_empty_falsy. }
  split.
  - now apply missing_fields_answer.
  - rewrite !missing_fields_answer by assumption. reflexivity.
Qed.

Lemma empty_field_rejected_as_absent_witness :
  serve plain_framework (cooperative both_tokens result_html)
    (Some fresh_browser) (post_fetch (student "honours" "" (JS.Str "100200"))) =
    answered (Some fresh_browser) 400 "Missing required fields" /\
  serve plain_framework (cooperative both_tokens result_html)
    (Some fresh_browser) (post_fetch (student "honours" "" (JS.Str "100200"))) =
    serve plain_framework (cooperative both_tokens result_html)
      (Some fresh_browser)
      (post_fetch (empty_as_absent (student "honours" "" (JS.Str "100200")))).
Proof.
  apply (empty_field_rejected_as_absent plain_framework
           (cooperative both_tokens result_html) (Some fresh_browser)
           (student "honours" "" (JS.Str "100200"))).
  right. left. reflexivity.
Defined.

(** ** Claims about the session *)

(** C2 as stated fails: after a request that runs to its end, with every
    call returning, the context the handler opened is still in the
    browser's table. *)
Lemma session_context_left_open :
  ~ session_released fresh_browser
      (serve plain_framework (cooperative both_tokens result_html)
         (Some fresh_browser)
         (post_fetch (student "honours" "1" (JS.Str "100200")))).
Proof.
  intros [after [H [C _]]]. vm_compute in H. inversion H; subst.
  discriminate C.
Qed.

(** C2, amended: on every exit path of [POST /fetch], a page the handler
    opened gets a call to [page.close()], and when the calls to
    [page.close()] return the page is no longer open; a context the handler
    opened stays open, the handler never closes it. *)
Theorem page_closed_context_kept fw env w b :
  let s := serve fw env (Some w) (post_fetch b) in
  exists after,
    st_browser s = Some after /\
    (forall c p, In (NewPage c (Returns p)) (st_trace s) ->
       (exists r, In (Close p r) (st_trace s)) /\
       ((forall n, close env n = Returns tt) -> ~ In p (open_pages after))) /\
    (forall c, In (NewContext (Returns c)) (st_trace s) ->
       In c (contexts after)).
Proof.
  explore.
  all: eexists; split; [reflexivity | ].
  all: split; [ intros c0 p0 H; pick H | intros c0 H; pick H ].
  all: inversion H; subst; clear H.
  all: try (left; reflexivity).
  all: split; [ close_issued | intros Hc ].
  all: try apply remove_page_spec.
  all: try closes_return Hc.
Qed.

Lemma page_closed_context_kept_witness :
  exists after,
    st_browser (serve plain_framework (cooperative no_letters_code result_html)
                  (Some fresh_browser)
                  (post_fetch (student "honours" "2" (JS.Str "100200"))))
    = Some after /\
    (exists r, In (Close 1 r)
       (st_trace (serve plain_framework (cooperative no_letters_code result_html)
                    (Some fresh_browser)
                    (post_fetch (student "honours" "2" (JS.Str "100200")))))) /\
    ~ In 1 (open_pages after) /\
    In 0 (contexts after).
Proof.
  destruct (page_closed_context_kept plain_framework
              (cooperative no_letters_code result_html) fresh_browser
              (student "honours" "2" (JS.Str "100200")))
    as [after [B [P C]]].
  exists after. split; [exact B | ].
  assert (N : In (NewPage 0 (Returns 1))
                (st_trace (serve plain_framework
                             (cooperative no_letters_code result_html)
                             (Some fresh_browser)
                             (post_fetch (student "honours" "2" (JS.Str "100200"))))))
    by find_in.
  destruct (P 0 1 N) as [I O].
  split; [exact I | ].
  split; [apply O; intros n; reflexivity | ].
  apply C. find_in.
Defined.

(** ** Claims about the tokens and the submission *)

(** C4: when the form page lacks either token the request is answered with
    500 and no form is submitted; an answer with status 200 is only given
    in a run whose own token extraction returned both tokens; and a
    submitted form carries the tokens read in the same run. *)
Theorem both_tokens_required fw env browser b :
  let s := serve fw env browser (post_fetch b) in
  (forall p t,
     In (EvaluateTokens p (Returns t)) (st_trace s) ->
     csrf_token t = None \/ letters_code t = None ->
     (exists text,
        st_sent s = [{| status := 500; headers := cors_headers; body := text |}]) /\
     submitted s = false) /\
  (forall r,
     In r (st_sent s) -> status r = 200 ->
     exists p c l,
       In (EvaluateTokens p
             (Returns {| csrf_token := Some c; letters_code := Some l |}))
          (st_trace s)) /\
  (forall p url fields r,
     In (Submit p url fields r) (st_trace s) ->
     exists c l,
       In (EvaluateTokens p
             (Returns {| csrf_token := Some c; letters_code := Some l |}))
          (st_trace s) /\
       JS.assoc "csrf_token" fields = Some c /\
       JS.assoc "letters_code" fields = Some l).
Proof.
  explore.
  all: split;
    [ intros p0 t0 H A; pick H
    | split; [ intros r0 H S2; pick H | intros p0 url0 f0 r0 H; pick H ] ].
  all: try (subst r0; discriminate S2).
  all: try (inversion H; subst; clear H).
  all: try (apply token_absent_falsy in A; congruence).
  all: try (split; [eexists; reflexivity | reflexivity]).
  all: match goal with
       | E : _ || _ = false |- _ =>
           apply tokens_truthy_both in E;
           destruct E as [c1 [l1 [E [N1 N2]]]]; subst
       end.
  all: do 2 eexists; try eexists; try split; try split; try reflexivity.
  all: cbn [In]; repeat (first [left; reflexivity | right]).
Qed.

Lemma both_tokens_required_witness :
  (exists text,
     st_sent (serve plain_framework (cooperative no_letters_code result_html)
                (Some fresh_browser)
                (post_fetch (student "honours" "3" (JS.Str "100200")))) =
     [{| status := 500; headers := cors_headers; body := text |}]) /\
  submitted (serve plain_framework (cooperative no_letters_code result_html)
               (Some fresh_browser)
               (post_fetch (student "honours" "3" (JS.Str "100200")))) = false.
Proof.
  apply (proj1 (both_tokens_required plain_framework
                  (cooperative no_letters_code result_html)
                  (Some fresh_browser)
                  (student "honours" "3" (JS.Str "100200")))
           1 no_letters_code).
  - find_in.
  - right. reflexivity.
Defined.

(** C5: when the in-page submission returns the remote site's text, the
    request is answered once, with status 200, the header
    [Content-Type: text/html] and exactly that text as body. *)
Theorem result_relayed fw env browser b p url fields html :
  let s := serve fw env browser (post_fetch b) in
  In (Submit p url fields (Returns html)) (st_trace s) ->
  exists r,
    st_sent s = [r] /\
    status r = 200 /\
    header "Content-Type" r = Some "text/html" /\
    body r = html.
Proof.
  explore.
  all: intros H; pick H.
  all: inversion H; subst; clear H.
  all: eexists; split; [reflexivity | ]; repeat split.
Qed.

Lemma result_relayed_witness :
  exists r,
    st_sent (serve plain_framework (cooperative both_tokens result_html)
               (Some fresh_browser)
               (post_fetch (student "honours" "4" (JS.Str "100200")))) = [r] /\
    status r = 200 /\
    header "Content-Type" r = Some "text/html" /\
    body r = result_html.
Proof.
  apply (result_relayed plain_framework (cooperative both_tokens result_html)
           (Some fresh_browser) (student "honours" "4" (JS.Str "100200"))
           1 "http://results.nu.ac.bd/honours/fourth_year_result_show.php"
           [ ("roll_number", "100200"); ("reg_no", "17212345678");
             ("exam_year", "2021"); ("csrf_token", "k3y");
             ("letters_code", "QWRT") ]
           result_html).
  find_in.
Defined.

(** Every URL [getUrls] builds is made of the characters [percent_encode]
    is defined for. *)
Lemma getUrls_alphabet exam year u :
  getUrls exam year = Some u ->
  all_chars url_char (form u) = true /\ all_chars url_char (action u) = true.
Proof.
  unfold getUrls, JS.get.
  destruct (JS.strict_eq_str exam "honours"); [ | discriminate].
  generalize (JS.to_property_key year). intros k.
  unfold pages, JS.proto_members. cbn [JS.assoc].
  repeat match goal with
         | |- context [if (?x =? ?lit)%string then _ else _] =>
             destruct (String.eqb_spec x lit); [subst x | ]
         end.
  all: cbn; intros H; try discriminate H.
  all: inversion H; subst; clear H.
  all: split; vm_compute; reflexivity.
Qed.





(** ** Claims about the unavailable browser and unknown pairs *)

(** A refused body never reaches the browser: the answer is a 400 and the
    trace is empty, whatever the state of the browser. *)
Lemma early_rejection fw env browser b :
  resolvable b = false ->
  exists text,
    serve fw env browser (post_fetch b) = answered browser 400 text.
Proof.
  unfold resolvable. intros H.
  destruct (missing_fields b) eqn:M.
  - eexists. now apply missing_fields_answer.
  - destruct (getUrls (exam b) (year b)) eqn:G; [discriminate H | ].
    eexists. now apply unknown_pair_answer.
Qed.



(** C8, at the pair (['honours'], ['constructor']): the pair is no row of
    the lookup table, and the request is not refused.  [getUrls] resolves
    it through [Object.prototype], so whatever the browser does the handler
    opens a session and the answer is not a 400; when every call returns,
    it loads a page and answers with status 200. *)
Theorem fetch_inherited_year_navigates fw env w :
  let b := student "honours" "constructor" (JS.Str "100200") in
  let s := serve fw env (Some w) (post_fetch b) in
  let s' := serve plain_framework (cooperative both_tokens result_html)
              (Some fresh_browser) (post_fetch b) in
  JS.assoc (JS.to_property_key (year b)) pages = None /\
  (exists r, st_sent s = [r] /\ status r <> 400) /\
  (exists r, In (NewContext r) (st_trace s)) /\
  map status (st_sent s') = [200] /\
  In (Goto 1
        "http://results.nu.ac.bd/honours/function Object() { [native code] }.php"
        "networkidle" 30000%N (Returns tt))
     (st_trace s').
Proof.
  cbv zeta. split; [reflexivity | ].
  destruct (accepted_request_navigates fw env w
              (student "honours" "constructor" (JS.Str "100200"))) as [R N];
    [reflexivity | ].
  split; [exact R | ].
  split; [exact N | ].
  split; [vm_compute; reflexivity | ].
  find_in.
Qed.

(** ** Claims about the cross-origin middleware *)

(** C9 as stated fails: a request whose body [express.json()] rejects is
    answered by the framework before the cross-origin middleware runs; the
    answer to such an [OPTIONS] request has status 400 and none of the
    three headers. *)
Lemma rejected_body_skips_cors :
  st_sent (serve plain_framework (cooperative both_tokens result_html)
             (Some fresh_browser)
             {| method := OPTIONS; target := PathFetch;
                payload := Rejected 400 |}) =
    [{| status := 400; headers := []; body := "Bad Request" |}] /\
  header "Access-Control-Allow-Origin"
    {| status := 400; headers := []; body := "Bad Request" |} = None.
Proof. split; reflexivity. Qed.

(** C9, amended: every answer to a request whose body the JSON parser
    handed on carries the three cross-origin headers, on every route and
    for every method; and every such [OPTIONS] request, whatever its path,
    is answered with status 200 and an empty body, without reaching a
    route. *)
Theorem cors_after_parser fw env browser m t b :
  let s := serve fw env browser
             {| method := m; target := t; payload := Body b |} in
  (forall r,
     In r (st_sent s) ->
     header "Access-Control-Allow-Origin" r = Some "*" /\
     header "Access-Control-Allow-Methods" r = Some "POST, GET, OPTIONS" /\
     header "Access-Control-Allow-Headers" r = Some "Content-Type") /\
  (m = OPTIONS -> s = answered browser 200 "").
Proof.
  destruct m, t; explore.
  all: split; [ intros r0 H; pick H; subst r0; repeat split
              | intros O; first [reflexivity | discriminate O] ].
Qed.

Lemma cors_after_parser_witness :
  serve plain_framework (cooperative both_tokens result_html)
    (Some fresh_browser)
    {| method := OPTIONS; target := PathOther "/anything";
       payload := Body empty_body |} =
  answered (Some fresh_browser) 200 "".
Proof.
  apply (proj2 (cors_after_parser plain_framework
                  (cooperative both_tokens result_html) (Some fresh_browser)
                  OPTIONS (PathOther "/anything") empty_body)).
  reflexivity.
Defined.

(** * Further properties of the code *)

Lemma assoc_none_iff {A : Type} k (l : list (string * A)) :
  JS.assoc k l = None <-> ~ In k (map fst l).
Proof.
  induction l as [ | [k' a] l IH]; cbn.
  - tauto.
  - destruct (String.eqb_spec k k').
    + subst. split; [discriminate | tauto].
    + rewrite IH. split; [ intros H [E | I]; [congruence | tauto] | tauto ].
Qed.

Lemma in_keys_dec {A : Type} k (l : list (string * A)) :
  In k (map fst l) \/ ~ In k (map fst l).
Proof.
  destruct (in_dec string_dec k (map fst l)); auto.
Qed.

Lemma in_remove_page q p l : In q (remove_page p l) <-> In q l /\ q <> p.
Proof.
  unfold remove_page. rewrite filter_In.
  destruct (Nat.eqb_spec q p); cbn; intuition congruence.
Qed.

(** ** [getUrls] *)

(** X1: [getUrls] returns a URL pair exactly when the exam is the string
    ['honours'] and the property key of the year is one of the five keys of
    [pages] or one of the twelve names [pages] inherits from
    [Object.prototype]; in every other case it returns [null]. *)
Theorem getUrls_resolves_iff exam year :
  getUrls exam year <> None <->
  exam = JS.Str "honours" /\
  (In (JS.to_property_key year) (map fst pages) \/
   In (JS.to_property_key year) (map fst JS.proto_members)).
Proof.
  rewrite getUrls_null_iff. unfold JS.get.
  split.
  - intros H.
    assert (E : exam = JS.Str "honours").
    { destruct exam as [ | | ? | s]; try (exfalso; apply H; left; discriminate).
      destruct (string_dec s "honours"); [now subst | ].
      exfalso. apply H. left. congruence. }
    split; [exact E | ].
    destruct (in_keys_dec (JS.to_property_key year) pages) as [I | N];
      [now left | ].
    destruct (in_keys_dec (JS.to_property_key year) JS.proto_members)
      as [I | N']; [now right | ].
    exfalso. apply H. right.
    apply assoc_none_iff in N, N'. now rewrite N, N'.
  - intros [E [I | I]] [N | N]; try contradiction.
    + destruct (JS.assoc (JS.to_property_key year) pages) eqn:A.
      * discriminate N.
      * apply assoc_none_iff in A. contradiction.
    + destruct (JS.assoc (JS.to_property_key year) pages) eqn:A;
        [discriminate N | ].
      destruct (JS.assoc (JS.to_property_key year) JS.proto_members) eqn:A';
        [discriminate N | ].
      apply assoc_none_iff in A'. contradiction.
Qed.

(** X2: [getUrls] never gives the same URL pair to two different years: when
    two calls return the same pair, the years have the same property
    key. *)
Theorem getUrls_injective e1 y1 e2 y2 u :
  getUrls e1 y1 = Some u -> getUrls e2 y2 = Some u ->
  JS.to_property_key y1 = JS.to_property_key y2.
Proof.
  unfold getUrls, JS.get.
  destruct (JS.strict_eq_str e1 "honours"); [ | discriminate].
  destruct (JS.strict_eq_str e2 "honours"); [ | discriminate].
  generalize (JS.to_property_key y1) (JS.to_property_key y2). intros k1 k2.
  unfold pages, JS.proto_members. cbn [JS.assoc].
  repeat match goal with
         | |- context [if (?k =? ?lit)%string then _ else _] =>
             destruct (String.eqb_spec k lit); [subst k | ]
         end.
  all: cbn; intros H1 H2; try discriminate; try reflexivity.
  all: rewrite <- H2 in H1; try discriminate H1.
Qed.

Lemma getUrls_injective_witness :
  JS.to_property_key (JS.Str "3") = JS.to_property_key (JS.Str "3").
Proof.
  apply (getUrls_injective (JS.Str "honours") (JS.Str "3")
           (JS.Str "honours") (JS.Str "3")
           {| form := "http://results.nu.ac.bd/honours/third_year_result.php";
              action :=
                "http://results.nu.ac.bd/honours/third_year_result_show.php" |});
    reflexivity.
Defined.

(** ** The handler of [POST /fetch] *)

(** X3: on every path through the application, that is whenever the
    awaited calls settle, each by returning or by throwing, exactly one
    response is sent, never two and never none: the [catch] block never
    sends after the [try] block did, and no branch ends without sending;
    the answer to a [POST /fetch] with a parsed body has status 200, 400 or
    500.  A call that never settles is not a path of this statement. *)
Theorem answered_once fw env browser req b :
  (exists r, st_sent (serve fw env browser req) = [r]) /\
  (exists r,
     st_sent (serve fw env browser (post_fetch b)) = [r] /\
     (status r = 200 \/ status r = 400 \/ status r = 500)).
Proof.
  split.
  - destruct req as [m t [b0 | code]]; explore; eexists; reflexivity.
  - explore; eexists; (split; [reflexivity | cbn; auto]).
Qed.

(** X4: a page is only ever loaded from the form URL [getUrls] resolved for
    the request, with [waitUntil: 'networkidle'] and a timeout of 30000 ms,
    on the page this request opened, and after the user agent was set on
    that page. *)
Theorem form_page_loaded_as_resolved fw env browser b p url wu t r :
  let s := serve fw env browser (post_fetch b) in
  In (Goto p url wu t r) (st_trace s) ->
  exists u c,
    getUrls (exam b) (year b) = Some u /\
    url = form u /\ wu = "networkidle" /\ t = 30000%N /\
    In (NewPage c (Returns p)) (until is_goto (st_trace s)) /\
    In (SetUserAgent p user_agent (Returns tt)) (until is_goto (st_trace s)).
Proof.
  explore.
  all: intros H; pick H.
  all: inversion H; subst; clear H.
  all: repeat match goal with x : unit |- _ => destruct x end.
  all: do 2 eexists; split; [first [eassumption | reflexivity] | ].
  all: repeat (split; [reflexivity | ]).
  all: split; in_trace.
Qed.

Lemma form_page_loaded_as_resolved_witness :
  exists u c,
    getUrls (JS.Str "honours") (JS.Str "1") = Some u /\
    "http://results.nu.ac.bd/honours/first_year_result.php" = form u /\
    "networkidle" = "networkidle" /\ 30000%N = 30000%N /\
    In (NewPage c (Returns 1))
       (until is_goto
          (st_trace (serve plain_framework (stalled "Timeout 30000ms exceeded")
                       (Some fresh_browser)
                       (post_fetch (student "honours" "1" (JS.Str "100200")))))) /\
    In (SetUserAgent 1 user_agent (Returns tt))
       (until is_goto
          (st_trace (serve plain_framework (stalled "Timeout 30000ms exceeded")
                       (Some fresh_browser)
                       (post_fetch (student "honours" "1" (JS.Str "100200")))))).
Proof.
  apply (form_page_loaded_as_resolved plain_framework
           (stalled "Timeout 30000ms exceeded") (Some fresh_browser)
           (student "honours" "1" (JS.Str "100200")) 1
           "http://results.nu.ac.bd/honours/first_year_result.php"
           "networkidle" 30000%N (Throws "Timeout 30000ms exceeded")).
  find_in.
Defined.

(** X5: a form is only submitted from the page this request opened, after
    that page loaded the form page successfully, and before any call to
    [page.close()]. *)
Theorem submitted_from_loaded_page fw env browser b p url fields r :
  let s := serve fw env browser (post_fetch b) in
  In (Submit p url fields r) (st_trace s) ->
  exists u c,
    getUrls (exam b) (year b) = Some u /\
    In (NewPage c (Returns p)) (until is_submit (st_trace s)) /\
    In (Goto p (form u) "networkidle" 30000%N (Returns tt))
       (until is_submit (st_trace s)) /\
    existsb is_close (until is_submit (st_trace s)) = false.
Proof.
  explore.
  all: intros H; pick H.
  all: inversion H; subst; clear H.
  all: repeat match goal with x : unit |- _ => destruct x end.
  all: do 2 eexists; split; [first [eassumption | reflexivity] | ].
  all: split; [in_trace | split; [in_trace | reflexivity]].
Qed.

Lemma submitted_from_loaded_page_witness :
  exists u c,
    getUrls (JS.Str "honours") (JS.Str "2") = Some u /\
    In (NewPage c (Returns 1))
       (until is_submit
          (st_trace (serve plain_framework (cooperative both_tokens result_html)
                       (Some fresh_browser)
                       (post_fetch (student "honours" "2" (JS.Str "100200")))))) /\
    In (Goto 1 (form u) "networkidle" 30000%N (Returns tt))
       (until is_submit
          (st_trace (serve plain_framework (cooperative both_tokens result_html)
                       (Some fresh_browser)
                       (post_fetch (student "honours" "2" (JS.Str "100200")))))) /\
    existsb is_close
      (until is_submit
         (st_trace (serve plain_framework (cooperative both_tokens result_html)
                      (Some fresh_browser)
                      (post_fetch (student "honours" "2" (JS.Str "100200"))))))
    = false.
Proof.
  apply (submitted_from_loaded_page plain_framework
           (cooperative both_tokens result_html) (Some fresh_browser)
           (student "honours" "2" (JS.Str "100200")) 1
           "http://results.nu.ac.bd/honours/second_year_result_show.php"
           [ ("roll_number", "100200"); ("reg_no", "17212345678");
             ("exam_year", "2021"); ("csrf_token", "k3y");
             ("letters_code", "QWRT") ]
           (Returns result_html)).
  find_in.
Defined.

(** X6: the form carries the text each value has as the content of an
    input element: a string as it is, an absent [roll] as [undefined], a
    [null] as the empty text, a boolean as [true] or [false]; the tokens are
    the two non-empty strings this run read from the form page. *)
Theorem submitted_form_renders_values fw env browser b p url fields r :
  let s := serve fw env browser (post_fetch b) in
  In (Submit p url fields r) (st_trace s) ->
  exists c l,
    In (EvaluateTokens p
          (Returns {| csrf_token := Some c; letters_code := Some l |}))
       (st_trace s) /\
    c <> "" /\ l <> "" /\
    fields = [ ("roll_number", JS.to_dom_string (roll b));
               ("reg_no", JS.to_dom_string (reg b));
               ("exam_year", JS.to_dom_string (examYear b));
               ("csrf_token", c); ("letters_code", l) ].
Proof.
  explore.
  all: intros H; pick H.
  all: inversion H; subst; clear H.
  all: match goal with
       | E : _ || _ = false |- _ =>
           apply tokens_truthy_both in E;
           destruct E as [c1 [l1 [E [N1 N2]]]]; subst
       end.
  all: do 2 eexists; split; [in_trace | ].
  all: split; [eassumption | split; [eassumption | reflexivity]].
Qed.

Lemma submitted_form_renders_values_witness :
  exists c l,
    In (EvaluateTokens 1
          (Returns {| csrf_token := Some c; letters_code := Some l |}))
       (st_trace (serve plain_framework (cooperative both_tokens result_html)
                    (Some fresh_browser)
                    (post_fetch (student "honours" "1" JS.Null)))) /\
    c <> "" /\ l <> "" /\
    [ ("roll_number", ""); ("reg_no", "17212345678"); ("exam_year", "2021");
      ("csrf_token", "k3y"); ("letters_code", "QWRT") ] =
    [ ("roll_number", JS.to_dom_string JS.Null);
      ("reg_no", JS.to_dom_string (JS.Str "17212345678"));
      ("exam_year", JS.to_dom_string (JS.Str "2021"));
      ("csrf_token", c); ("letters_code", l) ].
Proof.
  apply (submitted_form_renders_values plain_framework
           (cooperative both_tokens result_html) (Some fresh_browser)
           (student "honours" "1" JS.Null) 1
           "http://results.nu.ac.bd/honours/first_year_result_show.php"
           [ ("roll_number", ""); ("reg_no", "17212345678");
             ("exam_year", "2021"); ("csrf_token", "k3y");
             ("letters_code", "QWRT") ]
           (Returns result_html)).
  find_in.
Defined.

(** X7: when a call into the browser other than [page.close()] throws, the
    request is answered with status 500 and the HTML fragment of the [catch]
    block, which embeds the error's message as it is, and the error is
    logged. *)
Theorem thrown_call_reported fw env browser b ev message :
  let s := serve fw env browser (post_fetch b) in
  In ev (st_trace s) -> failure_of ev = Some message ->
  st_sent s =
    [{| status := 500; headers := cors_headers; body := proxy_error message |}] /\
  In (ConsoleError ("Error: " ++ message)) (st_trace s).
Proof.
  explore.
  all: intros H F; pick H.
  all: subst ev; cbn in F; try discriminate F.
  all: inversion F; subst; clear F.
  all: split; [reflexivity | in_trace].
Qed.

Lemma thrown_call_reported_witness :
  st_sent (serve plain_framework (stalled "<b>Timeout</b>") (Some fresh_browser)
             (post_fetch (student "honours" "1" (JS.Str "100200")))) =
    [{| status := 500; headers := cors_headers;
        body := proxy_error "<b>Timeout</b>" |}] /\
  In (ConsoleError ("Error: " ++ "<b>Timeout</b>"))
     (st_trace (serve plain_framework (stalled "<b>Timeout</b>")
                  (Some fresh_browser)
                  (post_fetch (student "honours" "1" (JS.Str "100200"))))).
Proof.
  apply (thrown_call_reported plain_framework (stalled "<b>Timeout</b>")
           (Some fresh_browser) (student "honours" "1" (JS.Str "100200"))
           (Goto 1 "http://results.nu.ac.bd/honours/first_year_result.php"
              "networkidle" 30000%N (Throws "<b>Timeout</b>"))
           "<b>Timeout</b>").
  - find_in.
  - reflexivity.
Defined.

(** X8: an answer with status 200 to a [POST /fetch] always has the header
    [Content-Type: text/html] and as body the text a submission of this run
    returned; no other path answers 200. *)
Theorem ok_only_with_remote_text fw env browser b r :
  let s := serve fw env browser (post_fetch b) in
  In r (st_sent s) -> status r = 200 ->
  header "Content-Type" r = Some "text/html" /\
  exists p url fields, In (Submit p url fields (Returns (body r))) (st_trace s).
Proof.
  explore.
  all: intros H S; pick H.
  all: subst r; try discriminate S.
  all: split; [reflexivity | do 3 eexists; in_trace].
Qed.

Lemma ok_only_with_remote_text_witness :
  header "Content-Type"
    {| status := 200;
       headers := cors_headers ++ [("Content-Type", "text/html")];
       body := result_html |} = Some "text/html" /\
  exists p url fields,
    In (Submit p url fields (Returns result_html))
       (st_trace (serve plain_framework (cooperative both_tokens result_html)
                    (Some fresh_browser)
                    (post_fetch (student "honours" "4" (JS.Str "100200"))))).
Proof.
  apply (ok_only_with_remote_text plain_framework
           (cooperative both_tokens result_html) (Some fresh_browser)
           (student "honours" "4" (JS.Str "100200"))
           {| status := 200;
              headers := cors_headers ++ [("Content-Type", "text/html")];
              body := result_html |}).
  - find_in.
  - reflexivity.
Defined.

(** X9: a token input that is present with an empty value counts as
    missing: the request is answered with 500 and nothing is submitted; the
    body is the token message when the [page.close()] of line 102 returns,
    and the fragment of the [catch] block when it throws. *)
Theorem empty_token_rejected fw env browser b p t :
  let s := serve fw env browser (post_fetch b) in
  In (EvaluateTokens p (Returns t)) (st_trace s) ->
  csrf_token t = Some "" \/ letters_code t = Some "" ->
  submitted s = false /\
  exists text,
    st_sent s = [{| status := 500; headers := cors_headers; body := text |}] /\
    (close env 0 = Returns tt ->
     text = "❌ Failed to extract security tokens") /\
    (forall message,
       close env 0 = Throws message -> text = proxy_error message).
Proof.
  explore.
  all: intros H A; pick H.
  all: inversion H; subst; clear H.
  all: try (exfalso;
            match goal with
            | E : _ || _ = false |- _ =>
                apply tokens_truthy_both in E;
                destruct E as [c1 [l1 [E [N1 N2]]]]; subst; cbn in A;
                destruct A as [A | A]; inversion A; congruence
            end).
  all: split; [reflexivity | eexists; split; [reflexivity | ]].
  all: unfold proxy_error.
  all: split; [ intros C | intros m C ]; first [reflexivity | congruence].
Qed.

Lemma empty_token_rejected_witness :
  submitted (serve plain_framework (cooperative empty_csrf_token result_html)
               (Some fresh_browser)
               (post_fetch (student "honours" "1" (JS.Str "100200")))) = false /\
  exists text,
    st_sent (serve plain_framework (cooperative empty_csrf_token result_html)
               (Some fresh_browser)
               (post_fetch (student "honours" "1" (JS.Str "100200")))) =
      [{| status := 500; headers := cors_headers; body := text |}] /\
    (close (cooperative empty_csrf_token result_html) 0 = Returns tt ->
     text = "❌ Failed to extract security tokens") /\
    (forall message,
       close (cooperative empty_csrf_token result_html) 0 = Throws message ->
       text = proxy_error message).
Proof.
  apply (empty_token_rejected plain_framework
           (cooperative empty_csrf_token result_html) (Some fresh_browser)
           (student "honours" "1" (JS.Str "100200")) 1 empty_csrf_token).
  - find_in.
  - left. reflexivity.
Defined.

(** X10: [page.close()] is called twice on the path that refuses the tokens
    (line 102 and the [finally] block), once on every other path that
    opened a page, and never when no page was opened. *)
Theorem close_calls_counted fw env browser b :
  let s := serve fw env browser (post_fetch b) in
  count_closes (st_trace s) =
  if existsb page_opened (st_trace s)
  then if existsb tokens_refused (st_trace s) then 2 else 1
  else 0.
Proof.
  explore.
  all: cbn [existsb page_opened tokens_refused orb].
  all: repeat match goal with
         | E : ?x = _ |- context [?x] => rewrite E
         end.
  all: reflexivity.
Qed.

(** X11: a request leaves the sessions of other requests alone: every page
    and every context that was open before it is still open after it,
    whatever Playwright does; it hands out at most two identifiers, and the
    browser's table stays well formed. *)
Theorem other_sessions_untouched fw env w b :
  well_formed w ->
  exists after,
    st_browser (serve fw env (Some w) (post_fetch b)) = Some after /\
    (forall q, In q (open_pages w) -> In q (open_pages after)) /\
    (forall c, In c (contexts w) -> In c (contexts after)) /\
    next_id w <= next_id after <= next_id w + 2 /\
    well_formed after.
Proof.
  unfold well_formed. intros W. destruct w as [n cs ps].
  explore.
  all: eexists; split; [reflexivity | ].
  all: cbn [next_id contexts open_pages] in *.
  all: rewrite Forall_forall in W.
  all: split; [ intros q I;
                repeat (apply in_remove_page; split; [ | specialize (W q I); lia ]);
                cbn [In]; auto
              | ].
  all: split; [intros c I; cbn [In]; auto | ].
  all: split; [lia | ].
  all: rewrite Forall_forall; intros q I.
  all: repeat (apply in_remove_page in I; destruct I as [I _]).
  all: cbn [In] in I.
  all: repeat (destruct I as [I | I]; [lia | ]).
  all: specialize (W q I); lia.
Qed.

Lemma other_sessions_untouched_witness :
  exists after,
    st_browser (serve plain_framework (cooperative no_letters_code result_html)
                  (Some busy_browser)
                  (post_fetch (student "honours" "1" (JS.Str "100200"))))
    = Some after /\
    (forall q, In q (open_pages busy_browser) -> In q (open_pages after)) /\
    (forall c, In c (contexts busy_browser) -> In c (contexts after)) /\
    next_id busy_browser <= next_id after <= next_id busy_browser + 2 /\
    well_formed after.
Proof.
  apply (other_sessions_untouched plain_framework
           (cooperative no_letters_code result_html) busy_browser
           (student "honours" "1" (JS.Str "100200"))).
  unfold well_formed, busy_browser. cbn.
  constructor; [lia | constructor].
Defined.

(** X12: the promise of the handler is rejected only by the
    [page.close()] of the [finally] block: when the handler ends by
    throwing, the last call of the run is a [page.close()] that threw the
    same error, and the answer was already sent. *)
Theorem handler_rejects_only_on_last_close fw env browser b message :
  fst (run_request fw env browser (post_fetch b)) = Throw message ->
  exists p n,
    close env n = Throws message /\
    last (st_trace (snd (run_request fw env browser (post_fetch b))))
      (ConsoleLog "") = Close p (Throws message) /\
    length (st_sent (snd (run_request fw env browser (post_fetch b)))) = 1.
Proof.
  explore_run.
  all: cbn [fst snd st_trace st_sent last length].
  all: intros H; try discriminate H.
  all: inversion H; subst; clear H.
  all: do 2 eexists; split; [eassumption | split; reflexivity].
Qed.

Lemma handler_rejects_only_on_last_close_witness :
  exists p n,
    close (unclosable "Target closed") n = Throws "Target closed" /\
    last (st_trace (snd (run_request plain_framework
                           (unclosable "Target closed") (Some fresh_browser)
                           (post_fetch (student "honours" "1" (JS.Str "100200"))))))
      (ConsoleLog "") = Close p (Throws "Target closed") /\
    length (st_sent (snd (run_request plain_framework
                            (unclosable "Target closed") (Some fresh_browser)
                            (post_fetch (student "honours" "1" (JS.Str "100200"))))))
    = 1.
Proof.
  apply (handler_rejects_only_on_last_close plain_framework
           (unclosable "Target closed") (Some fresh_browser)
           (student "honours" "1" (JS.Str "100200")) "Target closed").
  vm_compute. reflexivity.
Defined.

(** ** Routes and start-up *)

(** X13: only [POST /fetch] reaches the browser: any other request, and any
    request the body parser rejects, makes no call into the browser and
    leaves its tables as they were. *)
Theorem only_fetch_reaches_browser fw env browser req :
  (method req, target req) <> (POST, PathFetch) \/
  (exists code, payload req = Rejected code) ->
  st_trace (serve fw env browser req) = [] /\
  st_browser (serve fw env browser req) = browser.
Proof.
  destruct req as [m t [b | code]]; cbn [method target payload]; intros H.
  - destruct H as [H | [code E]]; [ | discriminate E].
    destruct m, t; try (exfalso; apply H; reflexivity).
    all: split; reflexivity.
  - split; reflexivity.
Qed.

Lemma only_fetch_reaches_browser_witness :
  st_trace (serve plain_framework (cooperative both_tokens result_html)
              (Some busy_browser)
              {| method := GET; target := PathFetch;
                 payload := Body (student "honours" "1" (JS.Str "100200")) |})
  = [] /\
  st_browser (serve plain_framework (cooperative both_tokens result_html)
                (Some busy_browser)
                {| method := GET; target := PathFetch;
                   payload := Body (student "honours" "1" (JS.Str "100200")) |})
  = Some busy_browser.
Proof.
  apply (only_fetch_reaches_browser plain_framework
           (cooperative both_tokens result_html) (Some busy_browser)
           {| method := GET; target := PathFetch;
              payload := Body (student "honours" "1" (JS.Str "100200")) |}).
  left. cbn. discriminate.
Defined.

(** X14: the launch never throws out of its [try], and for a body that
    passes validation and lookup the answer is the 500 [Browser not ready]
    exactly when the request finds the global [browser] undefined: the
    launch is still pending, or it has failed. *)
Theorem browser_not_ready_iff_not_launched fw env l b :
  resolvable b = true ->
  (forall launch, fst (launch_browser launch (start None)) = Normal tt) /\
  (st_sent (serve fw env (browser_at l) (post_fetch b)) =
     [{| status := 500; headers := cors_headers; body := "Browser not ready" |}]
   <-> l = Pending \/ exists message, l = Settled (Throws message)).
Proof.
  unfold resolvable, missing_fields. intros H.
  apply andb_true_iff in H. destruct H as [M G].
  apply negb_true_iff in M.
  destruct (getUrls (exam b) (year b)) as [u | ] eqn:U;
    [clear G | discriminate G].
  split; [intros [w | message]; reflexivity | ].
  destruct l as [ | [w | message]].
  - change (browser_at Pending) with (@None browser_state).
    rewrite (no_browser_answer fw env b u) by (unfold missing_fields; assumption).
    split; [auto | reflexivity].
  - change (browser_at (Settled (Returns w))) with (Some w).
    split.
    + explore.
      all: try congruence.
      all: intros H; exfalso; inversion H.
    + intros [E | [m E]]; discriminate E.
  - change (browser_at (Settled (Throws message))) with (@None browser_state).
    rewrite (no_browser_answer fw env b u) by (unfold missing_fields; assumption).
    split; [eauto | reflexivity].
Qed.

Lemma browser_not_ready_iff_not_launched_witness :
  (forall launch, fst (launch_browser launch (start None)) = Normal tt) /\
  (st_sent (serve plain_framework (cooperative both_tokens result_html)
              (browser_at Pending)
              (post_fetch (student "honours" "1" (JS.Str "100200")))) =
     [{| status := 500; headers := cors_headers; body := "Browser not ready" |}]
   <-> Pending = Pending \/ exists message, Pending = Settled (Throws message)).
Proof.
  apply (browser_not_ready_iff_not_launched plain_framework
           (cooperative both_tokens result_html) Pending
           (student "honours" "1" (JS.Str "100200"))).
  reflexivity.
Defined.

(** X15: the answer to a request that fails validation or lookup, or that
    finds no browser, does not depend on Playwright or the remote site: the
    run is the same under any two environments and makes no call. *)
Theorem refused_request_ignores_environment fw env1 env2 browser b :
  resolvable b = false \/ browser = None ->
  serve fw env1 browser (post_fetch b) = serve fw env2 browser (post_fetch b) /\
  st_trace (serve fw env1 browser (post_fetch b)) = [].
Proof.
  unfold resolvable. intros H.
  destruct (missing_fields b) eqn:M.
  - rewrite !missing_fields_answer by assumption. split; reflexivity.
  - destruct (getUrls (exam b) (year b)) as [u | ] eqn:G.
    + destruct H as [H | H]; [discriminate H | subst browser].
      rewrite !(no_browser_answer fw _ b u) by assumption. split; reflexivity.
    + rewrite !unknown_pair_answer by assumption. split; reflexivity.
Qed.

Lemma refused_request_ignores_environment_witness :
  serve plain_framework (cooperative both_tokens result_html)
    (Some fresh_browser) (post_fetch (student "masters" "1" (JS.Str "100200"))) =
  serve plain_framework (stalled "Timeout") (Some fresh_browser)
    (post_fetch (student "masters" "1" (JS.Str "100200"))) /\
  st_trace (serve plain_framework (cooperative both_tokens result_html)
              (Some fresh_browser)
              (post_fetch (student "masters" "1" (JS.Str "100200")))) = [].
Proof.
  apply (refused_request_ignores_environment plain_framework
           (cooperative both_tokens result_html) (stalled "Timeout")
           (Some fresh_browser) (student "masters" "1" (JS.Str "100200"))).
  left. reflexivity.
Defined.

(** X16: a [POST /fetch] makes a call that opens a session or loads a page
    exactly when its body passes validation and lookup and the browser is
    available. *)
Theorem browser_reached_iff fw env browser b :
  navigated (serve fw env browser (post_fetch b)) = true <->
  resolvable b = true /\ exists w, browser = Some w.
Proof.
  split.
  - intros N.
    destruct (resolvable b) eqn:R.
    + split; [reflexivity | ].
      destruct browser as [w | ]; [eauto | ].
      unfold resolvable in R. apply andb_true_iff in R. destruct R as [M G].
      apply negb_true_iff in M.
      destruct (getUrls (exam b) (year b)) as [u | ] eqn:U; [ | discriminate G].
      rewrite (no_browser_answer fw env b u) in N by assumption.
      discriminate N.
    + destruct (early_rejection fw env browser b R) as [text E].
      rewrite E in N. discriminate N.
  - intros [R [w ->]].
    destruct (accepted_request_navigates fw env w b R) as [_ [r I]].
    unfold navigated. apply existsb_exists.
    exists (NewContext r). split; [exact I | reflexivity].
Qed.
